(** * DP_Trade_Calc: the cached, key-protected [/view] endpoint of [main.py]

    A shallow embedding of [main.py].  The module-level globals
    [cache_data] and [cache_expiry] become fields of an explicit world that
    every function threads; the two things the program reads from outside
    (the wall clock and the database) are passed in as arguments, so a run
    of the program is a function of what the clock and the database
    answered.  The world also records a trace of the observable effects
    (queries sent to the database, the line printed at startup, responses
    sent), which is what "no fetch occurs" and "exactly one new fetch"
    are stated on.

    Modelling conventions.
    - [datetime] is a point on the time line, counted in microseconds (the
      resolution of Python's [datetime]); [timedelta(seconds=n)] is
      [n * 10^6].  Time 0 is [datetime.min] (0001-01-01 00:00:00) and the
      last representable instant is [datetime.max]; building a
      [timedelta] and adding it to a [datetime] raise [OverflowError]
      outside their ranges, as CPython's [datetime] does.
    - The refusal that FastAPI's [APIKeyHeader] answers to a request without
      the header is FastAPI's own code and differs between releases; it is
      a parameter of the program.
    - A Python [str] is a [string]: a sequence of code points below 256,
      which is exactly what an HTTP header value is once decoded.
    - Requests are handled one at a time. *)

From Stdlib Require Import ZArith List String Ascii Bool Lia DecimalString.
Import ListNotations.

Local Open Scope string_scope.
Local Open Scope list_scope.
Local Open Scope Z_scope.

(** ** Python values used by the program *)

Module Py.

(** [str.isascii]: every code point is below 128. *)
Fixpoint isascii (s : string) : bool :=
  match s with
  | EmptyString => true
  | String c rest => (nat_of_ascii c <? 128)%nat && isascii rest
  end.

(** [secrets.compare_digest(a, b)] on two [str] arguments: a [TypeError]
    when either holds a non-ASCII character, else whether they are
    equal.  Its running time is not part of the model. *)
Definition compare_digest (a b : string) : string + bool :=
  if isascii a && isascii b then inr (String.eqb a b)
  else inl "comparing strings with non-ASCII characters is not supported".

(** [l[:stop]], with Python's adjustment of the bound: a negative [stop]
    counts from the end, and the bound is clamped to [0 .. len(l)]. *)
Definition slice_to {A : Type} (l : list A) (stop : Z) : list A :=
  let len := Z.of_nat (List.length l) in
  let stop := if stop <? 0 then Z.max 0 (stop + len) else Z.min stop len in
  firstn (Z.to_nat stop) l.

(** Truthiness of a value that is [None] or a list. *)
Definition truthy_list {A : Type} (v : option (list A)) : bool :=
  match v with
  | Some (_ :: _) => true
  | _ => false
  end.

(** Truthiness of a value that is [None] or a [datetime]. *)
Definition truthy_datetime {A : Type} (v : option A) : bool :=
  match v with
  | Some _ => true
  | None => false
  end.

End Py.

(** ** Data model *)

(** A scalar of a result row. *)
Inductive Scalar : Type :=
| SNull
| SInt (z : Z)
| SStr (s : string).

(** [dict(r._mapping)]: column name to value, in column order. *)
Definition Row : Type := list (string * Scalar).

Definition datetime : Type := Z.

Definition timedelta (seconds : Z) : Z := seconds * 1000000.

(** [datetime.max], 9999-12-31 23:59:59.999999, counted from [datetime.min]. *)
Definition datetime_max : datetime := 315537897599999999.

(** [timedelta(seconds=n)] as CPython builds it: the number of days
    [n // 86400] must fit a C [int], and then have magnitude at most
    999999999; otherwise [OverflowError], with the message given. *)
Definition timedelta_seconds (n : Z) : string + Z :=
  let days := n / 86400 in
  if (days <? - 2147483648) || (2147483647 <? days)
  then inl "Python int too large to convert to C int"
  else if (days <? - 999999999) || (999999999 <? days)
  then inl ("days=" ++ NilZero.string_of_int (Z.to_int days)
            ++ "; must have magnitude <= 999999999")%string
  else inr (timedelta n).

(** [t + delta] on a [datetime]: [OverflowError] when the sum leaves
    [datetime.min .. datetime.max]. *)
Definition datetime_add (t : datetime) (delta : Z) : string + datetime :=
  if (t + delta <? 0) || (datetime_max <? t + delta)
  then inl "date value out of range"
  else inr (t + delta).

(** [class Settings(BaseSettings)]. *)
Record Settings : Type := mkSettings {
  DATABASE_URL : string;
  API_KEY : string;
  CACHE_TTL : Z
}.

(** What the database answers at the moment it is queried: the connection
  or the query fails with an error whose [str] is [err], or the view
  [VORP_Latest] holds [view]. *)
Inductive Database : Type :=
| Failing (err : string)
| Serving (view : list Row).

(** The exception a fetch raises; [fetch_str] is its [str(e)]. *)
Record FetchError : Type := mkFetchError { fetch_str : string }.

(** What the cache layer may raise: the error of a fetch, or the
    [OverflowError] of the expiry's arithmetic. *)
Inductive Raised : Type :=
| FetchRaised (e : FetchError)
| OverflowError (msg : string).

(** [str(e)]. *)
Definition str (e : Raised) : string :=
  match e with
  | FetchRaised e => fetch_str e
  | OverflowError msg => msg
  end.

(** The status with which [APIKeyHeader(auto_error=True)] refuses a
    request that does not carry the header: 403 in FastAPI releases up to
    0.121, 401 from 0.122 on. *)
Inductive RefusalStatus : Type :=
| HTTP_401
| HTTP_403.

Definition refusal_code (st : RefusalStatus) : Z :=
  match st with
  | HTTP_401 => 401
  | HTTP_403 => 403
  end.

(** The part of the installed FastAPI the program depends on: how its
    [APIKeyHeader] refuses a missing key.  The repository pins no release,
    so the program is modelled for any such refusal. *)
Record FastAPI : Type := mkFastAPI {
  not_authenticated_status : RefusalStatus;
  not_authenticated_detail : string
}.

(** What a dependency of a route may raise. *)
Inductive DependencyError : Type :=
| HTTPException (status_code : Z) (detail : string)
| TypeError (msg : string).

Inductive Body : Type :=
| JsonStatus (status : string)            (* {"status": ...}  *)
| JsonMessage (message : string)          (* {"message": ...} *)
| JsonRows (rows : list Row)              (* {"rows": [...]}  *)
| JsonError (error : string)              (* {"error": ...}   *)
| JsonDetail (detail : string)            (* {"detail": ...}  *)
| PlainText (text : string).

Record Response : Type := mkResponse {
  status_code_of : Z;
  body_of : Body
}.

Inductive Event : Type :=
| Query (limit : Z)                (* SELECT * FROM VORP_Latest LIMIT :limit *)
| PrintPreloaded (n : nat)         (* [CACHE] Preloaded n rows at startup.   *)
| Responded (r : Response).

(** The module globals of the cache section. *)
Record Globals : Type := mkGlobals {
  cache_data : option (list Row);
  cache_expiry : option datetime
}.

Record World : Type := mkWorld {
  globals : Globals;
  trace : list Event
}.

(** The state of the module once it is imported: both globals are [None]. *)
Definition module_loaded : World :=
  mkWorld (mkGlobals None None) [].

(** ** Effects: state that survives an exception *)

Definition M (E A : Type) : Type := World -> (E + A) * World.

Definition ret {E A : Type} (a : A) : M E A := fun w => (inr a, w).

Definition raise {E A : Type} (e : E) : M E A := fun w => (inl e, w).

Definition bind {E A B : Type} (c : M E A) (k : A -> M E B) : M E B :=
  fun w =>
  match c w with
  | (inl e, w') => (inl e, w')
  | (inr a, w') => k a w'
  end.

Declare Scope py_scope.
Delimit Scope py_scope with py.
Notation "x <- c ;; k" := (bind c (fun x => k))
  (at level 61, c at next level, right associativity) : py_scope.
Notation "c ;; k" := (bind c (fun _ => k))
  (at level 61, right associativity) : py_scope.
Local Open Scope py_scope.

(** Runs [c] where a wider class of exceptions may be raised. *)
Definition widen {E E' A : Type} (f : E -> E') (c : M E A) : M E' A :=
  fun w =>
  match c w with
  | (inl e, w') => (inl (f e), w')
  | (inr a, w') => (inr a, w')
  end.

(** The value of a computation that may overflow. *)
Definition or_overflow {A : Type} (v : string + A) : M Raised A :=
  match v with
  | inl msg => raise (OverflowError msg)
  | inr a => ret a
  end.

Definition read_globals {E : Type} : M E Globals :=
  fun w => (inr (globals w), w).

Definition emit {E : Type} (ev : Event) : M E unit :=
  fun w => (inr tt, mkWorld (globals w) (trace w ++ [ev])).

Definition set_cache_data {E : Type} (v : list Row) : M E unit :=
  fun w => (inr tt, mkWorld (mkGlobals (Some v) (cache_expiry (globals w))) (trace w)).

Definition set_cache_expiry {E : Type} (v : datetime) : M E unit :=
  fun w => (inr tt, mkWorld (mkGlobals (cache_data (globals w)) (Some v)) (trace w)).

(** ** The program *)

Section Program.

Variable settings : Settings.
Variable fastapi : FastAPI.

(** *** Access control *)

(** The refusal of the installed FastAPI, as an exception. *)
Definition not_authenticated : DependencyError :=
  HTTPException (refusal_code (not_authenticated_status fastapi))
                (not_authenticated_detail fastapi).

(** [APIKeyHeader(name="X-API-Key", auto_error=True)]: a header that is
    absent or empty is refused by the framework before the dependency
    body runs. *)
Definition api_key_header (x_api_key : option string) : DependencyError + string :=
  match x_api_key with
  | None => inl not_authenticated
  | Some "" => inl not_authenticated
  | Some key => inr key
  end.

Definition require_api_key (api_key : string) : DependencyError + bool :=
  match Py.compare_digest api_key (API_KEY settings) with
  | inl msg => inl (TypeError msg)
  | inr false => inl (HTTPException 403 "Invalid API Key")
  | inr true => inr true
  end.

(** [Depends(require_api_key)] with its own [Depends(api_key_header)]. *)
Definition depends_require_api_key (x_api_key : option string)
  : DependencyError + bool :=
  match api_key_header x_api_key with
  | inl e => inl e
  | inr key => require_api_key key
  end.

(** *** Data source *)

(** The engine's answer to [SELECT * FROM VORP_Latest LIMIT :limit].
    MySQL refuses a negative row count. *)
Definition execute_limit (db : Database) (limit : Z) : FetchError + list Row :=
  match db with
  | Failing err => inl (mkFetchError err)
  | Serving view =>
      if limit <? 0
      then inl (mkFetchError "You have an error in your SQL syntax")
      else inr (firstn (Z.to_nat limit) view)
  end.

Definition fetch_view_data (db : Database) (limit : Z) : M FetchError (list Row) :=
  emit (Query limit) ;;
  match execute_limit db limit with
  | inl e => raise e
  | inr result => ret result
  end.

(** *** Cache *)

(** [cache_data and cache_expiry and now < cache_expiry]. *)
Definition cache_is_valid (g : Globals) (now : datetime) : bool :=
  Py.truthy_list (cache_data g)
  && Py.truthy_datetime (cache_expiry g)
  && match cache_expiry g with
     | Some expiry => now <? expiry
     | None => false
     end.

(** [t + timedelta(seconds=settings.CACHE_TTL)]: the [timedelta] is built,
    then added. *)
Definition expiry_at (t : datetime) : string + datetime :=
  match timedelta_seconds (CACHE_TTL settings) with
  | inl msg => inl msg
  | inr delta => datetime_add t delta
  end.

(** [now] is what [datetime.utcnow()] returns on entry. *)
Definition get_cached_data (now : datetime) (db : Database) (limit : Z)
  : M Raised (list Row) :=
  g <- read_globals ;;
  if cache_is_valid g now
  then ret (match cache_data g with Some rows => rows | None => [] end)
  else
    data <- widen FetchRaised (fetch_view_data db limit) ;;
    set_cache_data data ;;
    expiry <- or_overflow (expiry_at now) ;;
    set_cache_expiry expiry ;;
    ret data.

(** *** Startup *)

(** [now] is what [datetime.utcnow()] returns after the fetch. *)
Definition preload_cache (now : datetime) (db : Database) : M Raised unit :=
  data <- widen FetchRaised (fetch_view_data db 100) ;;
  set_cache_data data ;;
  expiry <- or_overflow (expiry_at now) ;;
  set_cache_expiry expiry ;;
  g <- read_globals ;;
  emit (PrintPreloaded
          (List.length (match cache_data g with Some rows => rows | None => [] end))).

(** *** Routes *)

Definition health : Response := mkResponse 200 (JsonStatus "ok").

Definition root : Response :=
  mkResponse 200
    (JsonMessage "FastAPI running. Use /view with API key to get data.").

(** The body of [read_view], once its dependency has passed. *)
Definition read_view (now : datetime) (db : Database) (limit : Z)
  : World -> Response * World :=
  fun w =>
    match get_cached_data now db limit w with
    | (inr rows, w') => (mkResponse 200 (JsonRows (Py.slice_to rows limit)), w')
    | (inl e, w') => (mkResponse 500 (JsonError (str e)), w')
    end.

(** *** The application *)

Inductive Request : Type :=
| GetHealth
| GetRoot
| GetView (x_api_key : option string) (limit : option Z).

(** What the outside answers while one request is handled. *)
Record Env : Type := mkEnv {
  clock : datetime;
  database : Database
}.

(** The query parameter [limit: int = 100]. *)
Definition query_limit (limit : option Z) : Z :=
  match limit with
  | Some n => n
  | None => 100
  end.

(** Routing of one request.  An [HTTPException] of the dependency becomes
    its status and detail; any other exception of the dependency is
    outside [read_view]'s [try] and becomes the framework's 500. *)
Definition handle (env : Env) (req : Request) : World -> Response * World :=
  fun w =>
    match req with
    | GetHealth => (health, w)
    | GetRoot => (root, w)
    | GetView x_api_key limit =>
        match depends_require_api_key x_api_key with
        | inl (HTTPException code detail) => (mkResponse code (JsonDetail detail), w)
        | inl (TypeError _) => (mkResponse 500 (PlainText "Internal Server Error"), w)
        | inr _ =>
            read_view (clock env) (database env) (query_limit limit) w
        end
    end.

Fixpoint serve (reqs : list (Env * Request)) (w : World) : World :=
  match reqs with
  | [] => w
  | (env, req) :: rest =>
      let '(r, w') := handle env req w in
      serve rest (mkWorld (globals w') (trace w' ++ [Responded r]))
  end.

(** The result of a run of the process. *)
Inductive Run : Type :=
| StartupFailed (e : Raised) (w : World)
| Served (started : World) (final : World).

(** Modelled from the spec: the startup lifecycle of the framework, which
    is not under src/.  The hook registered with [on_event("startup")] is
    invoked exactly once, before any request is served; when it raises,
    the application does not start and no request is served. *)
Definition run (boot : Env) (reqs : list (Env * Request)) : Run :=
  match preload_cache (clock boot) (database boot) module_loaded with
  | (inl e, w) => StartupFailed e w
  | (inr _, w) => Served w (serve reqs w)
  end.

End Program.

(** ** Reading a trace *)

Definition is_preload_print (ev : Event) : bool :=
  match ev with
  | PrintPreloaded _ => true
  | _ => false
  end.

Definition is_response (ev : Event) : bool :=
  match ev with
  | Responded _ => true
  | _ => false
  end.

Definition is_query (ev : Event) : bool :=
  match ev with
  | Query _ => true
  | _ => false
  end.

(** ** Concrete data used by the examples *)

(** A header value holding the single Latin-1 character U+00E9. *)
Definition latin1_key : string := String (ascii_of_nat 233) EmptyString.

(** FastAPI from release 0.122 on, and before. *)
Definition fastapi_current : FastAPI := mkFastAPI HTTP_401 "Not authenticated".
Definition fastapi_legacy : FastAPI := mkFastAPI HTTP_403 "Not authenticated".

(** A time to live of 10^12 seconds: no expiry computed from a present-day
    clock is a representable [datetime]. *)
Definition long_ttl_settings : Settings :=
  mkSettings "mysql+pymysql://reader@db/dynasty" "s3cret" 1000000000000.

(** 2025-01-01 00:00:00, in microseconds since [datetime.min]. *)
Definition new_year_2025 : datetime := 63871286400000000.

(** [now + timedelta(seconds=CACHE_TTL)] is a representable [datetime]:
    the [timedelta] can be built and the sum is within
    [datetime.min .. datetime.max]. *)
Definition expiry_in_range (settings : Settings) (now : datetime) : Prop :=
  - 999999999 <= CACHE_TTL settings / 86400 <= 999999999
  /\ 0 <= now + timedelta (CACHE_TTL settings) <= datetime_max.

Definition demo_settings : Settings :=
  mkSettings "mysql+pymysql://reader@db/dynasty" "s3cret" 60.

Definition row_a : Row := [("player", SStr "A"); ("vorp", SInt 12)].
Definition row_b : Row := [("player", SStr "B"); ("vorp", SInt 9)].
Definition row_c : Row := [("player", SStr "C"); ("vorp", SNull)].

(** ** The cache test and the two paths of [get_cached_data] *)

(** The entry of [g] is fresh at [now]: it holds the non-empty [rows] and an
    expiry that [now] is strictly before. *)
Definition fresh_entry (g : Globals) (now : datetime) (rows : list Row) : Prop :=
  exists expiry,
    cache_data g = Some rows /\ rows <> [] /\
    cache_expiry g = Some expiry /\ now < expiry.

(** The two cache globals are set together: one is [None] exactly when
    the other is. *)
Definition paired (g : Globals) : Prop :=
  cache_data g = None <-> cache_expiry g = None.

(** A [/view] request whose key passes the dependency. *)
Definition authorized_view (settings : Settings) (fastapi : FastAPI)
           (r : Env * Request) : bool :=
  match snd r with
  | GetView x_api_key _ =>
      match depends_require_api_key settings fastapi x_api_key with
      | inr _ => true
      | inl _ => false
      end
  | _ => false
  end.

(** Unfolds the effectful functions down to pairs of result and world. *)
(** Closes a goal [expiry_in_range settings now] on concrete data. *)
Ltac in_range :=
  unfold expiry_in_range; repeat split; vm_compute; discriminate.

Ltac run_py :=
  unfold get_cached_data, preload_cache, fetch_view_data, widen, or_overflow,
    bind, read_globals, emit, set_cache_data, set_cache_expiry, ret, raise.

(** A run with TTL = 5 s: the preload at t = 0 stores two rows; the request
    at t = 3 s is served from the cache; a wrong key and [/health] send no
    query; the request at t = 6 s refetches, with its own limit. *)
Example run_ttl_5 :
  run (mkSettings "mysql+pymysql://reader@db/dynasty" "s3cret" 5) fastapi_current
      (mkEnv 0 (Serving [row_a; row_b]))
      [ (mkEnv (timedelta 3) (Serving [row_c]), GetView (Some "s3cret") None);
        (mkEnv (timedelta 4) (Serving [row_c]), GetView (Some "nope") None);
        (mkEnv (timedelta 4) (Serving [row_c]), GetHealth);
        (mkEnv (timedelta 6) (Serving [row_c]), GetView (Some "s3cret") (Some 1)) ]
  = Served
      (mkWorld (mkGlobals (Some [row_a; row_b]) (Some (timedelta 5)))
               [Query 100; PrintPreloaded 2])
      (mkWorld (mkGlobals (Some [row_c]) (Some (timedelta 11)))
               [Query 100; PrintPreloaded 2;
                Responded (mkResponse 200 (JsonRows [row_a; row_b]));
                Responded (mkResponse 403 (JsonDetail "Invalid API Key"));
                Responded (mkResponse 200 (JsonStatus "ok"));
                Query 1;
                Responded (mkResponse 200 (JsonRows [row_c]))]).
Proof. reflexivity. Qed.

(** Python's [rows[:limit]] on three rows. *)
Example slice_to_examples :
  Py.slice_to [row_a; row_b; row_c] 2 = [row_a; row_b]
  /\ Py.slice_to [row_a; row_b; row_c] 10 = [row_a; row_b; row_c]
  /\ Py.slice_to [row_a; row_b; row_c] (-1) = [row_a; row_b]
  /\ Py.slice_to [row_a; row_b; row_c] (-5) = [].
Proof. repeat split. Qed.

(** The arithmetic of the expiry on three times to live. *)
Example expiry_at_examples :
  expiry_at demo_settings new_year_2025 = inr (new_year_2025 + timedelta 60)
  /\ expiry_at long_ttl_settings new_year_2025 = inl "date value out of range"
  /\ expiry_at (mkSettings "db" "s3cret" 86400000000000) new_year_2025
     = inl "days=1000000000; must have magnitude <= 999999999"
  /\ expiry_at (mkSettings "db" "s3cret" 1000000000000000) new_year_2025
     = inl "Python int too large to convert to C int"
  /\ expiry_at (mkSettings "db" "s3cret" (-1)) 0 = inl "date value out of range".
Proof. repeat split. Qed.

Lemma expiry_at_in_range (settings : Settings) (now : datetime) :
  expiry_in_range settings now ->
  expiry_at settings now = inr (now + timedelta (CACHE_TTL settings)).
Proof.
  intros [[Hlo Hhi] [Hmin Hmax]].
  unfold expiry_at, timedelta_seconds, datetime_add.
  replace (CACHE_TTL settings / 86400 <? - 2147483648) with false
    by (symmetry; apply Z.ltb_ge; lia).
  replace (2147483647 <? CACHE_TTL settings / 86400) with false
    by (symmetry; apply Z.ltb_ge; lia).
  replace (CACHE_TTL settings / 86400 <? - 999999999) with false
    by (symmetry; apply Z.ltb_ge; lia).
  replace (999999999 <? CACHE_TTL settings / 86400) with false
    by (symmetry; apply Z.ltb_ge; lia).
  simpl.
  replace (now + timedelta (CACHE_TTL settings) <? 0) with false
    by (symmetry; apply Z.ltb_ge; lia).
  replace (datetime_max <? now + timedelta (CACHE_TTL settings)) with false
    by (symmetry; apply Z.ltb_ge; lia).
  reflexivity.
Qed.

Lemma expiry_at_inr (settings : Settings) (now expiry : datetime) :
  expiry_at settings now = inr expiry ->
  expiry = now + timedelta (CACHE_TTL settings) /\ expiry_in_range settings now.
Proof.
  unfold expiry_at, timedelta_seconds, datetime_add, expiry_in_range.
  destruct (Z.ltb_spec (CACHE_TTL settings / 86400) (- 2147483648));
    [discriminate |].
  destruct (Z.ltb_spec 2147483647 (CACHE_TTL settings / 86400));
    [discriminate |].
  destruct (Z.ltb_spec (CACHE_TTL settings / 86400) (- 999999999));
    [discriminate |].
  destruct (Z.ltb_spec 999999999 (CACHE_TTL settings / 86400));
    [discriminate |].
  simpl.
  destruct (Z.ltb_spec (now + timedelta (CACHE_TTL settings)) 0);
    [discriminate |].
  destruct (Z.ltb_spec datetime_max (now + timedelta (CACHE_TTL settings)));
    [discriminate |].
  simpl. intros Hsum. inversion Hsum. repeat split; lia.
Qed.

Lemma cache_is_valid_true (g : Globals) (now : datetime) :
  cache_is_valid g now = true <-> exists rows, fresh_entry g now rows.
Proof.
  unfold cache_is_valid, fresh_entry.
  destruct g as [[[|r rows]|] [expiry|]]; simpl; split.
  all: try discriminate.
  all: try (intros (rows' & expiry' & Hd & Hne & He & Hlt);
            first [discriminate | inversion Hd; subst; now elim Hne]).
  - intros H. exists (r :: rows), expiry.
    repeat split; try discriminate. now apply Z.ltb_lt.
  - intros (rows' & expiry' & _ & _ & He & Hlt).
    inversion He; subst. now apply Z.ltb_lt.
Qed.

Lemma cache_is_valid_false (g : Globals) (now : datetime) :
  cache_is_valid g now = false <-> ~ exists rows, fresh_entry g now rows.
Proof.
  rewrite <- cache_is_valid_true.
  destruct (cache_is_valid g now); split; intro H;
    first [discriminate | reflexivity | now elim H | (intro; discriminate)].
Qed.

(** A hit: the stored rows come back and the world is untouched. *)
Lemma get_cached_data_hit (settings : Settings) (now : datetime) (db : Database)
      (limit : Z) (w : World) (rows : list Row) :
  fresh_entry (globals w) now rows ->
  get_cached_data settings now db limit w = (inr rows, w).
Proof.
  intros Hf.
  assert (Hv : cache_is_valid (globals w) now = true)
    by (apply cache_is_valid_true; now exists rows).
  destruct Hf as (expiry & Hd & _).
  run_py. now rewrite Hv, Hd.
Qed.

(** A miss: one query goes out.  A failed fetch leaves the globals alone;
    a fetch that returns overwrites [cache_data], and then [cache_expiry]
    unless the expiry overflows. *)
Lemma get_cached_data_miss (settings : Settings) (now : datetime) (db : Database)
      (limit : Z) (w : World) :
  cache_is_valid (globals w) now = false ->
  get_cached_data settings now db limit w =
  match execute_limit db limit with
  | inl e => (inl (FetchRaised e), mkWorld (globals w) (trace w ++ [Query limit]))
  | inr data =>
      match expiry_at settings now with
      | inl msg =>
          (inl (OverflowError msg),
           mkWorld (mkGlobals (Some data) (cache_expiry (globals w)))
                   (trace w ++ [Query limit]))
      | inr expiry =>
          (inr data,
           mkWorld (mkGlobals (Some data) (Some expiry)) (trace w ++ [Query limit]))
      end
  end.
Proof.
  intros Hv. run_py. rewrite Hv.
  destruct (execute_limit db limit); [reflexivity |].
  now destruct (expiry_at settings now).
Qed.

(** A refresh: a miss whose fetch returns and whose expiry is
    representable stores and returns what was fetched. *)
Lemma get_cached_data_refresh (settings : Settings) (now : datetime) (db : Database)
      (limit : Z) (w : World) (data : list Row) :
  cache_is_valid (globals w) now = false ->
  execute_limit db limit = inr data ->
  expiry_in_range settings now ->
  get_cached_data settings now db limit w
  = (inr data,
     mkWorld (mkGlobals (Some data) (Some (now + timedelta (CACHE_TTL settings))))
             (trace w ++ [Query limit])).
Proof.
  intros Hv Hdata Hrange.
  rewrite (get_cached_data_miss settings now db limit w Hv), Hdata.
  now rewrite (expiry_at_in_range settings now Hrange).
Qed.

(** Whatever happens, a call appends at most the one query to the trace. *)
Lemma get_cached_data_trace (settings : Settings) (now : datetime) (db : Database)
      (limit : Z) (w : World) :
  trace (snd (get_cached_data settings now db limit w)) =
  trace w ++ (if cache_is_valid (globals w) now then [] else [Query limit]).
Proof.
  destruct (cache_is_valid (globals w) now) eqn:Hv.
  - apply cache_is_valid_true in Hv. destruct Hv as (rows & Hf).
    rewrite (get_cached_data_hit settings now db limit w rows Hf).
    simpl. now rewrite app_nil_r.
  - rewrite (get_cached_data_miss settings now db limit w Hv).
    destruct (execute_limit db limit); [reflexivity |].
    now destruct (expiry_at settings now).
Qed.

(** ** C1: hit or refresh *)

(** C1, as stated, fails: an entry can exist and be unexpired and still be
    refetched.  Startup against an empty view stores the empty list with
    expiry 60 s; thirty seconds later the entry exists and [now] is
    strictly before its expiry, yet [get_cached_data] queries the database
    again and returns (and stores) the new rows instead of the cached
    ones. *)
Lemma get_cached_data_refetches_unexpired_empty_entry :
  let populated := mkWorld (mkGlobals (Some []) (Some (timedelta 60)))
                           [Query 100; PrintPreloaded 0] in
  preload_cache demo_settings 0 (Serving []) module_loaded = (inr tt, populated)
  /\ cache_data (globals populated) = Some []
  /\ cache_expiry (globals populated) = Some (timedelta 60)
  /\ timedelta 30 < timedelta 60
  /\ get_cached_data demo_settings (timedelta 30) (Serving [row_a]) 10 populated
     = (inr [row_a],
        mkWorld (mkGlobals (Some [row_a]) (Some (timedelta 90)))
                [Query 100; PrintPreloaded 0; Query 10]).
Proof. cbv. repeat split; reflexivity. Qed.

(** The second departure from C1: the expiry is computed after
    [cache_data] has been assigned, and the computation can raise.  With
    a time to live of 10^12 seconds the fetch succeeds, its rows are left
    in [cache_data], no expiry is stored and the call raises
    [OverflowError] instead of returning them. *)
Lemma get_cached_data_overflowing_expiry :
  get_cached_data long_ttl_settings new_year_2025 (Serving [row_a]) 10 module_loaded
  = (inl (OverflowError "date value out of range"),
     mkWorld (mkGlobals (Some [row_a]) None) [Query 10]).
Proof. reflexivity. Qed.

(** C1 (amended): for every call to [get_cached_data(limit)], if the cache
    holds a non-empty rows list and the current time is strictly before
    its expiry, those rows are returned and nothing else happens (no
    fetch, no change of state); otherwise exactly one query with [limit]
    is sent, and when it answers [data] and [now + CACHE_TTL] is a
    representable [datetime], [data] is stored with expiry
    [now + CACHE_TTL] and returned.  In particular, with TTL = 60 s and a
    non-empty snapshot populated at time [T], a call at [T + 30 s] returns
    the same rows with no new fetch and a call at [T + 61 s] triggers
    exactly one new fetch. *)
Theorem get_cached_data_hit_or_refresh
        (settings : Settings) (now : datetime) (db : Database) (limit : Z)
        (w : World) :
  (forall rows, fresh_entry (globals w) now rows ->
     get_cached_data settings now db limit w = (inr rows, w))
  /\ ((~ exists rows, fresh_entry (globals w) now rows) ->
      trace (snd (get_cached_data settings now db limit w))
        = trace w ++ [Query limit]
      /\ forall data, execute_limit db limit = inr data ->
           expiry_in_range settings now ->
           get_cached_data settings now db limit w
           = (inr data,
              mkWorld (mkGlobals (Some data)
                                 (Some (now + timedelta (CACHE_TTL settings))))
                      (trace w ++ [Query limit])))
  /\ (CACHE_TTL settings = 60 ->
      forall (T : datetime) (rows : list Row),
        rows <> [] ->
        globals w = mkGlobals (Some rows) (Some (T + timedelta (CACHE_TTL settings))) ->
        get_cached_data settings (T + timedelta 30) db limit w = (inr rows, w)
        /\ trace (snd (get_cached_data settings (T + timedelta 61) db limit w))
           = trace w ++ [Query limit]).
Proof.
  split; [| split].
  - intros rows Hf. now apply get_cached_data_hit.
  - intros Hmiss. apply cache_is_valid_false in Hmiss. split.
    + rewrite get_cached_data_trace. now rewrite Hmiss.
    + intros data Hdata Hrange. now apply get_cached_data_refresh.
  - intros Httl T rows Hne Hg. rewrite Httl in Hg. split.
    + apply get_cached_data_hit. exists (T + timedelta 60).
      rewrite Hg. simpl. unfold timedelta. repeat split; trivial; lia.
    + rewrite get_cached_data_trace.
      assert (Hv : cache_is_valid (globals w) (T + timedelta 61) = false).
      { apply cache_is_valid_false. intros (rows' & expiry & _ & _ & He & Hlt).
        rewrite Hg in He. simpl in He. inversion He; subst.
        unfold timedelta in Hlt. lia. }
      now rewrite Hv.
Qed.

Lemma get_cached_data_hit_or_refresh_witness :
  let w := mkWorld (mkGlobals (Some [row_a; row_b]) (Some (1000 + timedelta 60)))
                   [Query 100; PrintPreloaded 2] in
  get_cached_data demo_settings (1000 + timedelta 30) (Serving [row_c]) 5 w
    = (inr [row_a; row_b], w)
  /\ trace (snd (get_cached_data demo_settings (1000 + timedelta 61)
                                 (Serving [row_c]) 5 w))
     = [Query 100; PrintPreloaded 2; Query 5]
  /\ get_cached_data demo_settings 7 (Serving [row_c; row_a]) 1 module_loaded
     = (inr [row_c],
        mkWorld (mkGlobals (Some [row_c]) (Some (7 + timedelta 60))) [Query 1]).
Proof.
  intro w. split; [| split].
  - destruct (get_cached_data_hit_or_refresh demo_settings (1000 + timedelta 30)
                (Serving [row_c]) 5 w) as (Hhit & _ & _).
    apply Hhit. exists (1000 + timedelta 60).
    split; [reflexivity | split; [discriminate | split; reflexivity]].
  - destruct (get_cached_data_hit_or_refresh demo_settings 0
                (Serving [row_c]) 5 w) as (_ & _ & Hscen).
    apply (Hscen eq_refl 1000 [row_a; row_b]); [discriminate | reflexivity].
  - destruct (get_cached_data_hit_or_refresh demo_settings 7
                (Serving [row_c; row_a]) 1 module_loaded) as (_ & Hmiss & _).
    apply Hmiss; [| reflexivity | in_range].
    intros (rows & expiry & Hd & _). discriminate Hd.
Defined.

(** ** C3: a failed refresh *)

(** C3: when a call to [get_cached_data(limit)] fetches and the fetch
    raises, the same error comes out of [get_cached_data] and both globals
    are exactly as before the call; only the query itself was observed. *)
Theorem get_cached_data_failed_fetch_keeps_cache
        (settings : Settings) (now : datetime) (db : Database) (limit : Z)
        (w : World) (e : FetchError) :
  (~ exists rows, fresh_entry (globals w) now rows) ->
  execute_limit db limit = inl e ->
  get_cached_data settings now db limit w
  = (inl (FetchRaised e), mkWorld (globals w) (trace w ++ [Query limit])).
Proof.
  intros Hmiss He. apply cache_is_valid_false in Hmiss.
  rewrite (get_cached_data_miss settings now db limit w Hmiss).
  now rewrite He.
Qed.

Lemma get_cached_data_failed_fetch_keeps_cache_witness :
  let w := mkWorld (mkGlobals (Some [row_a]) (Some 500)) [Query 100] in
  get_cached_data demo_settings 500 (Failing "connection refused") 10 w
  = (inl (FetchRaised (mkFetchError "connection refused")),
     mkWorld (mkGlobals (Some [row_a]) (Some 500)) [Query 100; Query 10]).
Proof.
  intro w.
  apply (get_cached_data_failed_fetch_keeps_cache demo_settings 500
           (Failing "connection refused") 10 w
           (mkFetchError "connection refused")).
  - intros (rows & expiry & _ & _ & He & Hlt).
    inversion He; subst. lia.
  - reflexivity.
Defined.

(** ** C5: a hit ignores the limit of the call *)

Lemma slice_to_all {A : Type} (l : list A) (stop : Z) :
  Z.of_nat (List.length l) <= stop -> Py.slice_to l stop = l.
Proof.
  intros Hlen. unfold Py.slice_to.
  destruct (stop <? 0) eqn:Hneg.
  - apply Z.ltb_lt in Hneg. lia.
  - rewrite Z.min_r by lia. rewrite Nat2Z.id. apply firstn_all.
Qed.

(** C5: on a cache hit [get_cached_data] returns the stored rows
    unchanged, whatever limit (and database) the call comes with; so a
    [/view] request whose limit is larger than the limit the snapshot was
    fetched with gets exactly the cached rows, and no query is sent. *)
Theorem get_cached_data_hit_ignores_limit
        (settings : Settings) (now : datetime) (w : World) (rows : list Row) :
  fresh_entry (globals w) now rows ->
  (forall db limit, get_cached_data settings now db limit w = (inr rows, w))
  /\ (forall view fetched_with db limit,
        execute_limit (Serving view) fetched_with = inr rows ->
        fetched_with < limit ->
        read_view settings now db limit w = (mkResponse 200 (JsonRows rows), w)).
Proof.
  intros Hf. split.
  - intros db limit. now apply get_cached_data_hit.
  - intros view fetched_with db limit Hfetch Hlt.
    unfold read_view. rewrite (get_cached_data_hit settings now db limit w rows Hf).
    rewrite slice_to_all; [reflexivity |].
    simpl in Hfetch. destruct (fetched_with <? 0) eqn:Hneg; [discriminate |].
    apply Z.ltb_ge in Hneg. inversion Hfetch; subst.
    rewrite length_firstn. lia.
Qed.

Lemma get_cached_data_hit_ignores_limit_witness :
  let w := mkWorld (mkGlobals (Some [row_a; row_b]) (Some 100)) [Query 2] in
  get_cached_data demo_settings 40 (Serving [row_a; row_b; row_c]) 3 w
    = (inr [row_a; row_b], w)
  /\ read_view demo_settings 40 (Serving [row_a; row_b; row_c]) 3 w
    = (mkResponse 200 (JsonRows [row_a; row_b]), w).
Proof.
  intro w.
  assert (Hf : fresh_entry (globals w) 40 [row_a; row_b]).
  { exists 100. split; [reflexivity | split; [discriminate | split; reflexivity]]. }
  destruct (get_cached_data_hit_ignores_limit demo_settings 40 w [row_a; row_b] Hf)
    as (Hget & Hview).
  split.
  - apply Hget.
  - apply (Hview [row_a; row_b; row_c] 2); reflexivity.
Defined.

(** ** C9: an empty snapshot is never served *)

(** C9: while the cache slot holds an empty rows list, every call to
    [get_cached_data] goes to the database, also when the current time is
    strictly before the stored expiry: it sends the query with its limit
    and its outcome is that of a refresh (the fetch's error with the
    globals untouched, or the fetched rows stored in place of the empty
    list), never the cached empty list served as a hit. *)
Theorem get_cached_data_empty_snapshot_refetched
        (settings : Settings) (now : datetime) (db : Database) (limit : Z)
        (w : World) :
  cache_data (globals w) = Some [] ->
  trace (snd (get_cached_data settings now db limit w)) = trace w ++ [Query limit]
  /\ get_cached_data settings now db limit w
     = match execute_limit db limit with
       | inl e =>
           (inl (FetchRaised e), mkWorld (globals w) (trace w ++ [Query limit]))
       | inr data =>
           match expiry_at settings now with
           | inl msg =>
               (inl (OverflowError msg),
                mkWorld (mkGlobals (Some data) (cache_expiry (globals w)))
                        (trace w ++ [Query limit]))
           | inr expiry =>
               (inr data,
                mkWorld (mkGlobals (Some data) (Some expiry))
                        (trace w ++ [Query limit]))
           end
       end.
Proof.
  intros Hempty.
  assert (Hv : cache_is_valid (globals w) now = false)
    by (unfold cache_is_valid; now rewrite Hempty).
  split.
  - rewrite get_cached_data_trace. now rewrite Hv.
  - now apply get_cached_data_miss.
Qed.

Lemma get_cached_data_empty_snapshot_refetched_witness :
  10 < 1000
  /\ get_cached_data demo_settings 10 (Serving [row_a; row_b]) 1
       (mkWorld (mkGlobals (Some []) (Some 1000)) [Query 100])
     = (inr [row_a],
        mkWorld (mkGlobals (Some [row_a]) (Some (10 + timedelta 60)))
                [Query 100; Query 1]).
Proof.
  split; [lia |].
  destruct (get_cached_data_empty_snapshot_refetched demo_settings 10
              (Serving [row_a; row_b]) 1
              (mkWorld (mkGlobals (Some []) (Some 1000)) [Query 100]) eq_refl)
    as (_ & Hrun).
  exact Hrun.
Defined.

(** ** C2: the key check *)

Lemma compare_digest_ascii (a b : string) :
  Py.isascii a = true -> Py.isascii b = true ->
  Py.compare_digest a b = inr (String.eqb a b).
Proof.
  intros Ha Hb. unfold Py.compare_digest. now rewrite Ha, Hb.
Qed.

Lemma api_key_header_present (fastapi : FastAPI) (key : string) :
  key <> "" -> api_key_header fastapi (Some key) = inr key.
Proof.
  intros Hne. destruct key; [now elim Hne | reflexivity].
Qed.

(** C2, as stated, fails: a request without the header is not refused by
    [require_api_key] but, before it runs, by the header scheme, with the
    scheme's own status and message.  With FastAPI from 0.122 on the
    status is 401, not 403; with earlier releases it is 403, but with the
    scheme's detail; either way the response to a missing key is told
    apart from the response to a wrong one. *)
Lemma view_missing_key_told_apart_from_wrong_key :
  fst (handle demo_settings fastapi_current (mkEnv 0 (Serving []))
              (GetView None None) module_loaded)
    = mkResponse 401 (JsonDetail "Not authenticated")
  /\ fst (handle demo_settings fastapi_current (mkEnv 0 (Serving []))
                 (GetView (Some "guess") None) module_loaded)
    = mkResponse 403 (JsonDetail "Invalid API Key")
  /\ fst (handle demo_settings fastapi_legacy (mkEnv 0 (Serving []))
                 (GetView None None) module_loaded)
    = mkResponse 403 (JsonDetail "Not authenticated")
  /\ fst (handle demo_settings fastapi_legacy (mkEnv 0 (Serving []))
                 (GetView (Some "guess") None) module_loaded)
    = mkResponse 403 (JsonDetail "Invalid API Key").
Proof. repeat split. Qed.

(** A second departure, not by design: a header that differs from the
    configured key is not always answered with 403.  A value with a
    character outside ASCII makes [secrets.compare_digest] raise
    [TypeError] inside the dependency, outside any handler of the route,
    and the response is the framework's 500. *)
Lemma view_non_ascii_key_is_not_403 :
  latin1_key <> API_KEY demo_settings
  /\ require_api_key demo_settings latin1_key
     = inl (TypeError "comparing strings with non-ASCII characters is not supported")
  /\ handle demo_settings fastapi_current (mkEnv 0 (Serving [row_a]))
            (GetView (Some latin1_key) None) module_loaded
     = (mkResponse 500 (PlainText "Internal Server Error"), module_loaded)
  /\ status_code_of
       (fst (handle demo_settings fastapi_current (mkEnv 0 (Serving [row_a]))
                    (GetView (Some latin1_key) None) module_loaded)) <> 403.
Proof.
  split; [discriminate |]. split; [reflexivity |]. split; [reflexivity |].
  vm_compute. discriminate.
Qed.

(** C2 (amended): with an ASCII configured key, every [/view] request
    whose [X-API-Key] header is present, non-empty, ASCII and different
    from the configured key is answered 403 with the fixed detail
    "Invalid API Key"; a request whose header is missing or empty is
    refused before [require_api_key] runs, with the status (401 or 403)
    and the message of the installed FastAPI's header scheme; neither
    touches the cache or the database.  A header equal to the configured
    (non-empty) key passes the check. *)
Theorem view_key_check
        (settings : Settings) (fastapi : FastAPI) (env : Env) (limit : option Z)
        (w : World) :
  Py.isascii (API_KEY settings) = true ->
  (forall key, key <> "" -> Py.isascii key = true -> key <> API_KEY settings ->
     handle settings fastapi env (GetView (Some key) limit) w
     = (mkResponse 403 (JsonDetail "Invalid API Key"), w))
  /\ (forall x_api_key,
        x_api_key = None \/ x_api_key = Some "" ->
        handle settings fastapi env (GetView x_api_key limit) w
        = (mkResponse (refusal_code (not_authenticated_status fastapi))
                      (JsonDetail (not_authenticated_detail fastapi)), w)
        /\ (refusal_code (not_authenticated_status fastapi) = 401
            \/ refusal_code (not_authenticated_status fastapi) = 403))
  /\ (API_KEY settings <> "" ->
      depends_require_api_key settings fastapi (Some (API_KEY settings)) = inr true).
Proof.
  intros Hsecret. split; [| split].
  - intros key Hne Hascii Hdiff.
    unfold handle, depends_require_api_key, require_api_key.
    rewrite (api_key_header_present fastapi key Hne).
    rewrite (compare_digest_ascii _ _ Hascii Hsecret).
    apply String.eqb_neq in Hdiff. now rewrite Hdiff.
  - intros x_api_key [Hmissing | Hempty]; subst x_api_key;
      (split; [reflexivity |]);
      destruct (not_authenticated_status fastapi); simpl; auto.
  - intros Hne. unfold depends_require_api_key, require_api_key.
    rewrite (api_key_header_present fastapi _ Hne).
    rewrite (compare_digest_ascii _ _ Hsecret Hsecret).
    now rewrite String.eqb_refl.
Qed.

Lemma view_key_check_witness :
  handle demo_settings fastapi_current (mkEnv 0 (Serving [row_a]))
         (GetView (Some "guess") (Some 5)) module_loaded
    = (mkResponse 403 (JsonDetail "Invalid API Key"), module_loaded)
  /\ handle demo_settings fastapi_current (mkEnv 0 (Serving [row_a]))
            (GetView None (Some 5)) module_loaded
    = (mkResponse 401 (JsonDetail "Not authenticated"), module_loaded)
  /\ depends_require_api_key demo_settings fastapi_current (Some "s3cret") = inr true.
Proof.
  destruct (view_key_check demo_settings fastapi_current (mkEnv 0 (Serving [row_a]))
              (Some 5) module_loaded eq_refl) as (Hwrong & Hmissing & Hright).
  split; [| split].
  - apply Hwrong; [discriminate | reflexivity | discriminate].
  - apply (Hmissing None). now left.
  - apply Hright. discriminate.
Defined.

(** ** C4: a failed fetch is a 500, and the next good fetch a 200 *)

(** An entry that is not fresh now is not fresh later. *)
Lemma cache_is_valid_false_later (g : Globals) (now now' : datetime) :
  cache_is_valid g now = false -> now <= now' -> cache_is_valid g now' = false.
Proof.
  intros Hv Hle. apply cache_is_valid_false.
  intros (rows & expiry & Hd & Hne & He & Hlt).
  apply cache_is_valid_false in Hv. apply Hv.
  exists rows, expiry. split; [assumption | split; [assumption | split; [assumption | lia]]].
Qed.

(** C4, as stated, fails in its second half: a request that follows a
    failed one and whose fetch succeeds is not always answered 200.  With
    a time to live of 10^12 seconds the rows come back from the database,
    the computation of the expiry then raises inside [get_cached_data],
    and [read_view] turns that into a 500 as well. *)
Lemma view_good_fetch_after_failure_is_500 :
  let down := mkEnv new_year_2025 (Failing "gone") in
  let up := mkEnv (new_year_2025 + timedelta 1) (Serving [row_a]) in
  let first := handle long_ttl_settings fastapi_current down
                      (GetView (Some "s3cret") None) module_loaded in
  fst first = mkResponse 500 (JsonError "gone")
  /\ execute_limit (database up) 100 = inr [row_a]
  /\ handle long_ttl_settings fastapi_current up (GetView (Some "s3cret") None)
            (snd first)
     = (mkResponse 500 (JsonError "date value out of range"),
        mkWorld (mkGlobals (Some [row_a]) None) [Query 100; Query 100]).
Proof. repeat split. Qed.

(** C4 (amended): a [/view] request with a valid key whose fetch fails is
    answered 500 with body [{"error": str(e)}] and leaves the cache as it
    was; a later request with a valid key whose fetch succeeds, at a time
    for which [now + CACHE_TTL] is a representable [datetime], is answered
    200 with the fetched rows (cut to its limit) and refreshes the cache,
    nothing else being done in between. *)
Theorem view_fetch_failure_then_recovery
        (settings : Settings) (fastapi : FastAPI) (env : Env)
        (x_api_key : option string) (limit : option Z) (w : World)
        (e : FetchError) :
  depends_require_api_key settings fastapi x_api_key = inr true ->
  (~ exists rows, fresh_entry (globals w) (clock env) rows) ->
  execute_limit (database env) (query_limit limit) = inl e ->
  handle settings fastapi env (GetView x_api_key limit) w
  = (mkResponse 500 (JsonError (fetch_str e)),
     mkWorld (globals w) (trace w ++ [Query (query_limit limit)]))
  /\ forall env' x_api_key' limit' data,
       depends_require_api_key settings fastapi x_api_key' = inr true ->
       clock env <= clock env' ->
       execute_limit (database env') (query_limit limit') = inr data ->
       expiry_in_range settings (clock env') ->
       handle settings fastapi env' (GetView x_api_key' limit')
              (snd (handle settings fastapi env (GetView x_api_key limit) w))
       = (mkResponse 200 (JsonRows (Py.slice_to data (query_limit limit'))),
          mkWorld (mkGlobals (Some data)
                             (Some (clock env' + timedelta (CACHE_TTL settings))))
                  (trace w ++ [Query (query_limit limit);
                               Query (query_limit limit')])).
Proof.
  intros Hkey Hmiss He. apply cache_is_valid_false in Hmiss.
  assert (Hfirst :
            handle settings fastapi env (GetView x_api_key limit) w
            = (mkResponse 500 (JsonError (fetch_str e)),
               mkWorld (globals w) (trace w ++ [Query (query_limit limit)]))).
  { unfold handle. rewrite Hkey. unfold read_view.
    now rewrite (get_cached_data_miss _ _ _ _ _ Hmiss), He. }
  split; [exact Hfirst |].
  intros env' x_api_key' limit' data Hkey' Hlater Hdata Hrange.
  rewrite Hfirst. unfold handle, snd. rewrite Hkey'. unfold read_view.
  rewrite (get_cached_data_refresh settings (clock env') (database env')
             (query_limit limit') _ data); trivial.
  - simpl. now rewrite <- app_assoc.
  - simpl. now apply cache_is_valid_false_later with (now := clock env).
Qed.

Lemma view_fetch_failure_then_recovery_witness :
  let down := mkEnv 100 (Failing "(2003) Can't connect to MySQL server") in
  let up := mkEnv 200 (Serving [row_a; row_b; row_c]) in
  let w := mkWorld (mkGlobals (Some [row_a]) (Some 50)) [] in
  handle demo_settings fastapi_current down (GetView (Some "s3cret") None) w
    = (mkResponse 500 (JsonError "(2003) Can't connect to MySQL server"),
       mkWorld (mkGlobals (Some [row_a]) (Some 50)) [Query 100])
  /\ handle demo_settings fastapi_current up (GetView (Some "s3cret") (Some 2))
            (snd (handle demo_settings fastapi_current down
                         (GetView (Some "s3cret") None) w))
     = (mkResponse 200 (JsonRows [row_a; row_b]),
        mkWorld (mkGlobals (Some [row_a; row_b]) (Some (200 + timedelta 60)))
                [Query 100; Query 2]).
Proof.
  intros down up w.
  assert (Hmiss : ~ exists rows, fresh_entry (globals w) (clock down) rows).
  { intros (rows & expiry & _ & _ & He & Hlt). inversion He; subst.
    simpl in Hlt. lia. }
  destruct (view_fetch_failure_then_recovery demo_settings fastapi_current down
              (Some "s3cret") None w
              (mkFetchError "(2003) Can't connect to MySQL server")
              eq_refl Hmiss eq_refl) as (Hfail & Hnext).
  split.
  - exact Hfail.
  - apply (Hnext up (Some "s3cret") (Some 2) [row_a; row_b]);
      [reflexivity | simpl; lia | reflexivity | in_range].
Defined.

(** ** C6: the limit bounds what comes back *)

Lemma slice_to_length {A : Type} (l : list A) (stop : Z) :
  0 <= stop -> Z.of_nat (List.length (Py.slice_to l stop)) <= stop.
Proof.
  intros Hpos. unfold Py.slice_to.
  destruct (stop <? 0) eqn:Hneg; [apply Z.ltb_lt in Hneg; lia |].
  rewrite length_firstn. lia.
Qed.

(** A refusal by the dependency is a 401 or a 403. *)
Lemma dependency_refusal_code (settings : Settings) (fastapi : FastAPI)
      (x_api_key : option string) (code : Z) (detail : string) :
  depends_require_api_key settings fastapi x_api_key
    = inl (HTTPException code detail) ->
  code = 401 \/ code = 403.
Proof.
  unfold depends_require_api_key, api_key_header, not_authenticated, require_api_key.
  destruct x_api_key as [[| c key] |].
  1, 3: intros H; inversion H;
        destruct (not_authenticated_status fastapi); simpl; auto.
  destruct (Py.compare_digest (String c key) (API_KEY settings)) as [msg | []];
    intros H; inversion H; auto.
Qed.

(** C6: for every non-negative [N], a fetch with limit [N] that returns,
    returns a list (finite and fully built) of at most [N] rows, and every
    200 response of [/view] to a request with [limit=N] carries at most
    [N] row objects. *)
Theorem limit_bounds_rows (settings : Settings) (fastapi : FastAPI) (N : Z) :
  0 <= N ->
  (forall view w,
     exists data,
       fetch_view_data (Serving view) N w
         = (inr data, mkWorld (globals w) (trace w ++ [Query N]))
       /\ Z.of_nat (List.length data) <= N)
  /\ (forall db w data w',
        fetch_view_data db N w = (inr data, w') ->
        Z.of_nat (List.length data) <= N)
  /\ (forall env x_api_key w,
        status_code_of
          (fst (handle settings fastapi env (GetView x_api_key (Some N)) w)) = 200 ->
        exists rows,
          body_of (fst (handle settings fastapi env (GetView x_api_key (Some N)) w))
            = JsonRows rows
          /\ Z.of_nat (List.length rows) <= N).
Proof.
  intros Hpos. split; [| split].
  - intros view w. exists (firstn (Z.to_nat N) view).
    run_py. simpl.
    destruct (N <? 0) eqn:Hneg; [apply Z.ltb_lt in Hneg; lia |].
    split; [reflexivity |]. rewrite length_firstn. lia.
  - intros db w data w'. run_py.
    destruct db as [err | view]; simpl; [discriminate |].
    destruct (N <? 0) eqn:Hneg; [discriminate |].
    intros Heq. inversion Heq; subst.
    rewrite length_firstn. lia.
  - intros env x_api_key w. unfold handle.
    destruct (depends_require_api_key settings fastapi x_api_key)
      as [[code detail | msg] | ok] eqn:Hdep.
    + apply dependency_refusal_code in Hdep. simpl. lia.
    + simpl. discriminate.
    + simpl. unfold read_view.
      destruct (get_cached_data settings (clock env) (database env) N w)
        as [[e | rows] w']; simpl; [discriminate |].
      intros _. exists (Py.slice_to rows N). split; [reflexivity |].
      now apply slice_to_length.
Qed.

Lemma limit_bounds_rows_witness :
  (exists data,
     fetch_view_data (Serving [row_a; row_b; row_c]) 2 module_loaded
       = (inr data, mkWorld (mkGlobals None None) [Query 2])
     /\ Z.of_nat (List.length data) <= 2)
  /\ exists rows,
       body_of (fst (handle demo_settings fastapi_current
                       (mkEnv 0 (Serving [row_a; row_b; row_c]))
                       (GetView (Some "s3cret") (Some 2)) module_loaded))
         = JsonRows rows
       /\ Z.of_nat (List.length rows) <= 2.
Proof.
  assert (Hpos : 0 <= 2) by lia.
  destruct (limit_bounds_rows demo_settings fastapi_current 2 Hpos)
    as (Hfetch & _ & Hview).
  split.
  - apply (Hfetch [row_a; row_b; row_c] module_loaded).
  - apply Hview. reflexivity.
Defined.

(** ** C10: a negative limit on a hit *)

Lemma slice_to_negative {A : Type} (l : list A) (k : Z) :
  0 < k ->
  Py.slice_to l (- k)
  = firstn (Z.to_nat (Z.max (Z.of_nat (List.length l) - k) 0)) l.
Proof.
  intros Hk. unfold Py.slice_to.
  destruct (- k <? 0) eqn:Hneg; [| apply Z.ltb_ge in Hneg; lia].
  f_equal. f_equal. lia.
Qed.

(** C10: [/view] does not check the sign of [limit]: a request with a
    valid key and [limit = -k], [k > 0], that is served from a cache of
    [n] rows is answered 200 with the first [max(n - k, 0)] cached rows,
    the last [k] being dropped by the slice; no query is sent. *)
Theorem view_negative_limit_drops_tail
        (settings : Settings) (fastapi : FastAPI) (env : Env)
        (x_api_key : option string) (k : Z) (w : World) (rows : list Row) :
  depends_require_api_key settings fastapi x_api_key = inr true ->
  0 < k ->
  fresh_entry (globals w) (clock env) rows ->
  handle settings fastapi env (GetView x_api_key (Some (- k))) w
  = (mkResponse 200
       (JsonRows (firstn (Z.to_nat (Z.max (Z.of_nat (List.length rows) - k) 0)) rows)),
     w).
Proof.
  intros Hkey Hk Hf. unfold handle. rewrite Hkey. unfold read_view. simpl query_limit.
  rewrite (get_cached_data_hit settings _ _ _ w rows Hf).
  now rewrite slice_to_negative.
Qed.

Lemma view_negative_limit_drops_tail_witness :
  let w := mkWorld (mkGlobals (Some [row_a; row_b; row_c]) (Some 900)) [] in
  handle demo_settings fastapi_current (mkEnv 5 (Failing "gone"))
         (GetView (Some "s3cret") (Some (-2))) w
    = (mkResponse 200 (JsonRows [row_a]), w)
  /\ handle demo_settings fastapi_current (mkEnv 5 (Failing "gone"))
            (GetView (Some "s3cret") (Some (-7))) w
    = (mkResponse 200 (JsonRows []), w).
Proof.
  intro w.
  assert (Hf : fresh_entry (globals w) 5 [row_a; row_b; row_c]).
  { exists 900. split; [reflexivity | split; [discriminate | split; reflexivity]]. }
  split.
  - apply (view_negative_limit_drops_tail demo_settings fastapi_current
             (mkEnv 5 (Failing "gone"))
             (Some "s3cret") 2 w [row_a; row_b; row_c] eq_refl eq_refl Hf).
  - apply (view_negative_limit_drops_tail demo_settings fastapi_current
             (mkEnv 5 (Failing "gone"))
             (Some "s3cret") 7 w [row_a; row_b; row_c] eq_refl eq_refl Hf).
Defined.

(** ** C7: the preload at startup *)

Lemma preload_cache_run (settings : Settings) (now : datetime) (db : Database)
      (w : World) :
  preload_cache settings now db w =
  match execute_limit db 100 with
  | inl e => (inl (FetchRaised e), mkWorld (globals w) (trace w ++ [Query 100]))
  | inr data =>
      match expiry_at settings now with
      | inl msg =>
          (inl (OverflowError msg),
           mkWorld (mkGlobals (Some data) (cache_expiry (globals w)))
                   (trace w ++ [Query 100]))
      | inr expiry =>
          (inr tt,
           mkWorld (mkGlobals (Some data) (Some expiry))
                   ((trace w ++ [Query 100]) ++ [PrintPreloaded (List.length data)]))
      end
  end.
Proof.
  run_py. destruct (execute_limit db 100); [reflexivity |].
  now destruct (expiry_at settings now).
Qed.

(** Handling a request never prints and never responds by itself: it adds
    queries only, and at most one. *)
Lemma handle_trace (settings : Settings) (fastapi : FastAPI) (env : Env)
      (req : Request) (w : World) :
  exists qs,
    trace (snd (handle settings fastapi env req w)) = trace w ++ qs
    /\ forallb is_query qs = true /\ (List.length qs <= 1)%nat.
Proof.
  assert (Hnone : exists qs, trace w = trace w ++ qs
                       /\ forallb is_query qs = true /\ (List.length qs <= 1)%nat).
  { exists []. rewrite app_nil_r.
    split; [reflexivity | split; [reflexivity | simpl; lia]]. }
  destruct req as [| | x_api_key limit]; simpl; try exact Hnone.
  destruct (depends_require_api_key settings fastapi x_api_key)
    as [[code detail | msg] | ok]; try exact Hnone.
  unfold read_view.
  pose proof (get_cached_data_trace settings (clock env) (database env)
                (query_limit limit) w) as Htr.
  destruct (get_cached_data settings (clock env) (database env) (query_limit limit) w)
    as [[e | rows] w']; simpl in *; rewrite Htr;
    destruct (cache_is_valid (globals w) (clock env));
    eexists; (split; [reflexivity | split; [reflexivity | simpl; lia]]).
Qed.

Lemma filter_queries_only (p : Event -> bool) (qs : list Event) :
  (forall limit, p (Query limit) = false) ->
  forallb is_query qs = true -> filter p qs = [].
Proof.
  intros Hp. induction qs as [| ev qs IH]; simpl; [reflexivity |].
  destruct ev; simpl; try discriminate.
  intros Hq. rewrite Hp. now apply IH.
Qed.

(** Serving [reqs] prints nothing and responds once per request. *)
Lemma serve_trace (settings : Settings) (fastapi : FastAPI)
      (reqs : list (Env * Request)) :
  forall w, exists rest,
    trace (serve settings fastapi reqs w) = trace w ++ rest
    /\ filter is_preload_print rest = []
    /\ List.length (filter is_response rest) = List.length reqs.
Proof.
  induction reqs as [| [env req] reqs IH]; intros w; simpl.
  - exists []. now rewrite app_nil_r.
  - destruct (handle_trace settings fastapi env req w) as (qs & Hqs & Hq & _).
    destruct (handle settings fastapi env req w) as [r w'] eqn:Hh. simpl in Hqs.
    destruct (IH (mkWorld (globals w') (trace w' ++ [Responded r])))
      as (rest & Hrest & Hnoprint & Hresp).
    exists (qs ++ [Responded r] ++ rest).
    rewrite Hrest. simpl trace. rewrite Hqs.
    split; [now rewrite <- !app_assoc |].
    rewrite !filter_app.
    rewrite (filter_queries_only is_preload_print qs) by (trivial; reflexivity).
    rewrite (filter_queries_only is_response qs) by (trivial; reflexivity).
    simpl. split; [assumption | now rewrite Hresp].
Qed.

(** C7, as stated, fails in its last part: the preload does not always set
    the initial expiry.  The expiry is computed after [cache_data] has
    been assigned; with a time to live of 10^12 seconds that computation
    raises, the hook ends with the rows stored, no expiry and nothing
    printed, and the application does not start. *)
Lemma preload_cache_overflowing_expiry :
  preload_cache long_ttl_settings new_year_2025 (Serving [row_a; row_b]) module_loaded
  = (inl (OverflowError "date value out of range"),
     mkWorld (mkGlobals (Some [row_a; row_b]) None) [Query 100])
  /\ run long_ttl_settings fastapi_current
         (mkEnv new_year_2025 (Serving [row_a; row_b]))
         [(mkEnv (new_year_2025 + timedelta 1) (Serving [row_a; row_b]), GetHealth)]
     = StartupFailed (OverflowError "date value out of range")
         (mkWorld (mkGlobals (Some [row_a; row_b]) None) [Query 100]).
Proof. split; reflexivity. Qed.

(** C7 (amended): the preload always fetches with the fixed limit 100,
    whatever the cache holds and whatever the requests will ask for.  In
    every run of the process whose startup time makes [now + CACHE_TTL] a
    representable [datetime], it happens once, at startup and before any
    request is answered: the trace starts with its query, and the start-up
    line is printed exactly once, before the first response.  When that
    query succeeds the cache then holds its rows with expiry
    [now + CACHE_TTL], and every request is answered afterwards; when it
    fails the application does not start and nothing is answered. *)
Theorem preload_once_at_startup
        (settings : Settings) (fastapi : FastAPI) (boot : Env)
        (reqs : list (Env * Request)) :
  (forall now db w,
     exists rest,
       trace (snd (preload_cache settings now db w)) = trace w ++ Query 100 :: rest
       /\ filter is_query rest = [])
  /\ (expiry_in_range settings (clock boot) ->
      match execute_limit (database boot) 100 with
      | inl e =>
          run settings fastapi boot reqs
          = StartupFailed (FetchRaised e) (mkWorld (mkGlobals None None) [Query 100])
      | inr data =>
          let started :=
            mkWorld (mkGlobals (Some data)
                               (Some (clock boot + timedelta (CACHE_TTL settings))))
                    [Query 100; PrintPreloaded (List.length data)] in
          exists final rest,
            run settings fastapi boot reqs = Served started final
            /\ trace final = [Query 100; PrintPreloaded (List.length data)] ++ rest
            /\ filter is_preload_print rest = []
            /\ List.length (filter is_response rest) = List.length reqs
      end).
Proof.
  split.
  - intros now db w. rewrite preload_cache_run.
    destruct (execute_limit db 100) as [e | data];
      [exists []; now split |].
    destruct (expiry_at settings now) as [msg | expiry];
      [exists []; now split |].
    exists [PrintPreloaded (List.length data)]. simpl.
    split; [now rewrite <- app_assoc | reflexivity].
  - intros Hrange. unfold run. rewrite preload_cache_run.
    rewrite (expiry_at_in_range settings (clock boot) Hrange).
    destruct (execute_limit (database boot) 100) as [e | data]; simpl;
      [reflexivity |].
    destruct (serve_trace settings fastapi reqs
                (mkWorld (mkGlobals (Some data)
                            (Some (clock boot + timedelta (CACHE_TTL settings))))
                         [Query 100; PrintPreloaded (List.length data)]))
      as (rest & Hrest & Hnoprint & Hresp).
    eexists. exists rest. split; [reflexivity |].
    split; [exact Hrest | split; assumption].
Qed.

Lemma preload_once_at_startup_witness :
  exists final rest,
    run demo_settings fastapi_current (mkEnv 0 (Serving [row_a; row_b]))
        [(mkEnv (timedelta 3) (Serving [row_c]), GetView (Some "s3cret") (Some 1));
         (mkEnv (timedelta 4) (Serving [row_c]), GetHealth)]
    = Served (mkWorld (mkGlobals (Some [row_a; row_b]) (Some (0 + timedelta 60)))
                      [Query 100; PrintPreloaded 2])
             final
    /\ trace final = [Query 100; PrintPreloaded 2] ++ rest
    /\ filter is_preload_print rest = []
    /\ List.length (filter is_response rest) = 2%nat.
Proof.
  destruct (preload_once_at_startup demo_settings fastapi_current
              (mkEnv 0 (Serving [row_a; row_b]))
              [(mkEnv (timedelta 3) (Serving [row_c]), GetView (Some "s3cret") (Some 1));
               (mkEnv (timedelta 4) (Serving [row_c]), GetHealth)])
    as (_ & Hrun).
  apply Hrun. in_range.
Defined.

(** * Further properties of the code *)

(** ** Who passes the key check *)

(** The dependency only ever lets the configured key through. *)
Lemma depends_accepts_only_secret (settings : Settings) (fastapi : FastAPI)
      (x_api_key : option string) (b : bool) :
  depends_require_api_key settings fastapi x_api_key = inr b ->
  b = true /\ x_api_key = Some (API_KEY settings)
  /\ API_KEY settings <> "" /\ Py.isascii (API_KEY settings) = true.
Proof.
  unfold depends_require_api_key, api_key_header, require_api_key, Py.compare_digest.
  destruct x_api_key as [[| c key] |]; try discriminate.
  destruct (Py.isascii (String c key) && Py.isascii (API_KEY settings)) eqn:Hascii;
    [| discriminate].
  destruct (String.eqb (String c key) (API_KEY settings)) eqn:Heq; [| discriminate].
  intros H. inversion H; subst b.
  apply andb_prop in Hascii. destruct Hascii as [_ Hsecret].
  apply String.eqb_eq in Heq. rewrite <- Heq.
  split; [reflexivity | split; [reflexivity | split; [discriminate |]]].
  now rewrite Heq.
Qed.

(** X1: the key check passes exactly when the header is present and equal,
    character for character, to the configured key, and that key is
    non-empty and ASCII.  Nothing else is ever let through. *)
Theorem key_check_passes_iff
        (settings : Settings) (fastapi : FastAPI) (x_api_key : option string) :
  depends_require_api_key settings fastapi x_api_key = inr true
  <-> (x_api_key = Some (API_KEY settings)
       /\ API_KEY settings <> "" /\ Py.isascii (API_KEY settings) = true).
Proof.
  split.
  - intros H. now apply depends_accepts_only_secret in H.
  - intros (Hh & Hne & Hascii). subst x_api_key.
    unfold depends_require_api_key, require_api_key.
    rewrite (api_key_header_present fastapi _ Hne).
    rewrite (compare_digest_ascii _ _ Hascii Hascii).
    now rewrite String.eqb_refl.
Qed.

Lemma key_check_passes_iff_witness :
  depends_require_api_key demo_settings fastapi_current (Some "s3cret") = inr true
  /\ (Some "S3CRET" = Some (API_KEY demo_settings) -> False).
Proof.
  split.
  - apply (proj2 (key_check_passes_iff demo_settings fastapi_current (Some "s3cret"))).
    split; [reflexivity | split; [discriminate | reflexivity]].
  - intros H. discriminate H.
Defined.

(** X2: a configured key that is empty or holds a non-ASCII character
    locks everybody out: no header passes the check.  With a non-ASCII
    key, every request that presents a non-empty header is answered with
    the framework's 500, whatever the header is. *)
Theorem unusable_secret_locks_out (settings : Settings) (fastapi : FastAPI) :
  API_KEY settings = "" \/ Py.isascii (API_KEY settings) = false ->
  (forall x_api_key, depends_require_api_key settings fastapi x_api_key <> inr true)
  /\ (Py.isascii (API_KEY settings) = false ->
      forall env key limit w,
        key <> "" ->
        handle settings fastapi env (GetView (Some key) limit) w
        = (mkResponse 500 (PlainText "Internal Server Error"), w)).
Proof.
  intros Hbad. split.
  - intros x_api_key H. apply depends_accepts_only_secret in H.
    destruct H as (_ & _ & Hne & Hascii).
    destruct Hbad as [Hempty | Hnon]; [now elim Hne | congruence].
  - intros Hnon env key limit w Hne.
    unfold handle, depends_require_api_key, require_api_key, Py.compare_digest.
    rewrite (api_key_header_present fastapi _ Hne), Hnon, andb_false_r.
    reflexivity.
Qed.

Lemma unusable_secret_locks_out_witness :
  depends_require_api_key (mkSettings "db" latin1_key 60) fastapi_current
                          (Some latin1_key) <> inr true
  /\ handle (mkSettings "db" latin1_key 60) fastapi_current (mkEnv 0 (Serving [row_a]))
            (GetView (Some latin1_key) None) module_loaded
     = (mkResponse 500 (PlainText "Internal Server Error"), module_loaded).
Proof.
  destruct (unusable_secret_locks_out (mkSettings "db" latin1_key 60) fastapi_current
              (or_intror eq_refl)) as (Hnobody & Hfail).
  split.
  - apply Hnobody.
  - apply Hfail; [reflexivity | discriminate].
Defined.

(** ** What a request can touch *)

(** X3: only a [/view] request that passes the key check can reach the
    cache or the database.  [/health], [/] and every refused [/view]
    request leave the world exactly as it was (no query, no change of the
    cache), and their response depends neither on the clock, nor on the
    database, nor on the cache. *)
Theorem only_authorized_view_acts
        (settings : Settings) (fastapi : FastAPI) (env : Env) (req : Request)
        (w : World) :
  (forall x_api_key limit,
     req = GetView x_api_key limit ->
     depends_require_api_key settings fastapi x_api_key <> inr true) ->
  snd (handle settings fastapi env req w) = w
  /\ forall env' w',
       fst (handle settings fastapi env' req w')
       = fst (handle settings fastapi env req w).
Proof.
  intros Hrefused.
  destruct req as [| | x_api_key limit]; simpl; try (split; reflexivity).
  specialize (Hrefused x_api_key limit eq_refl).
  destruct (depends_require_api_key settings fastapi x_api_key)
    as [[code detail | msg] | b] eqn:Hdep; try (split; reflexivity).
  apply depends_accepts_only_secret in Hdep. destruct Hdep as (Hb & _).
  subst b. now elim Hrefused.
Qed.

Lemma only_authorized_view_acts_witness :
  let w := mkWorld (mkGlobals (Some [row_a]) (Some 10)) [Query 100] in
  snd (handle demo_settings fastapi_current (mkEnv 99 (Serving [row_b]))
              (GetView (Some "guess") None) w)
  = w.
Proof.
  intro w.
  apply (only_authorized_view_acts demo_settings fastapi_current
           (mkEnv 99 (Serving [row_b])) (GetView (Some "guess") None) w).
  intros x_api_key limit Hreq. inversion Hreq; subst.
  vm_compute. discriminate.
Defined.

(** ** What a response can carry *)

Lemma slice_to_prefix {A : Type} (l : list A) (stop : Z) :
  exists tail, l = Py.slice_to l stop ++ tail.
Proof.
  unfold Py.slice_to.
  exists (skipn
            (Z.to_nat (if stop <? 0
                       then Z.max 0 (stop + Z.of_nat (List.length l))
                       else Z.min stop (Z.of_nat (List.length l)))) l).
  symmetry. apply firstn_skipn.
Qed.

(** What [get_cached_data] returns is what the cache holds afterwards. *)
Lemma get_cached_data_returns_cache (settings : Settings) (now : datetime)
      (db : Database) (limit : Z) (w w' : World) (rows : list Row) :
  get_cached_data settings now db limit w = (inr rows, w') ->
  cache_data (globals w') = Some rows.
Proof.
  destruct (cache_is_valid (globals w) now) eqn:Hv.
  - apply cache_is_valid_true in Hv. destruct Hv as (rows0 & Hf).
    rewrite (get_cached_data_hit settings now db limit w rows0 Hf).
    intros H. inversion H; subst. now destruct Hf as (expiry & Hd & _).
  - rewrite (get_cached_data_miss settings now db limit w Hv).
    destruct (execute_limit db limit); [discriminate |].
    destruct (expiry_at settings now); intros H; inversion H; now subst.
Qed.

(** A rows body only comes out of [read_view], behind the key check. *)
Lemma rows_body_from_read_view (settings : Settings) (fastapi : FastAPI) (env : Env)
      (req : Request) (w : World) (rows : list Row) :
  body_of (fst (handle settings fastapi env req w)) = JsonRows rows ->
  exists limit,
    req = GetView (Some (API_KEY settings)) limit
    /\ handle settings fastapi env req w
       = read_view settings (clock env) (database env) (query_limit limit) w.
Proof.
  destruct req as [| | x_api_key limit]; simpl; try discriminate.
  destruct (depends_require_api_key settings fastapi x_api_key)
    as [[code detail | msg] | b] eqn:Hdep; simpl; try discriminate.
  apply depends_accepts_only_secret in Hdep. destruct Hdep as (_ & Hh & _).
  subst x_api_key. intros _. now exists limit.
Qed.

(** X4: rows are only ever handed to a request that carries the configured
    key: whenever a response has a rows body, the request was a [/view]
    request whose [X-API-Key] header equals [API_KEY], and the status is
    200. *)
Theorem rows_only_with_the_key
        (settings : Settings) (fastapi : FastAPI) (env : Env) (req : Request)
        (w : World) (rows : list Row) :
  body_of (fst (handle settings fastapi env req w)) = JsonRows rows ->
  (exists limit, req = GetView (Some (API_KEY settings)) limit)
  /\ status_code_of (fst (handle settings fastapi env req w)) = 200.
Proof.
  intros Hbody.
  destruct (rows_body_from_read_view settings fastapi env req w rows Hbody)
    as (limit & Hreq & Hrun).
  split; [now exists limit |].
  rewrite Hrun in *. unfold read_view in *.
  destruct (get_cached_data settings (clock env) (database env) (query_limit limit) w)
    as [[e | rows0] w']; simpl in *; [discriminate | reflexivity].
Qed.

Lemma rows_only_with_the_key_witness :
  (exists limit,
     GetView (Some "s3cret") (Some 1) = GetView (Some (API_KEY demo_settings)) limit)
  /\ status_code_of
       (fst (handle demo_settings fastapi_current (mkEnv 0 (Serving [row_a; row_b]))
               (GetView (Some "s3cret") (Some 1)) module_loaded)) = 200.
Proof.
  apply (rows_only_with_the_key demo_settings fastapi_current
           (mkEnv 0 (Serving [row_a; row_b]))
           (GetView (Some "s3cret") (Some 1)) module_loaded [row_a]).
  reflexivity.
Defined.

(** X5: the rows of a response are always a prefix of what the cache holds
    once the request is handled, for every limit (negative ones too) and
    whether the request was a hit or a refresh: [read_view] never returns
    a row that is not cached, and never reorders rows. *)
Theorem response_rows_prefix_of_cache
        (settings : Settings) (fastapi : FastAPI) (env : Env) (req : Request)
        (w : World) (rows : list Row) :
  body_of (fst (handle settings fastapi env req w)) = JsonRows rows ->
  exists tail,
    cache_data (globals (snd (handle settings fastapi env req w)))
    = Some (rows ++ tail).
Proof.
  intros Hbody.
  destruct (rows_body_from_read_view settings fastapi env req w rows Hbody)
    as (limit & _ & Hrun).
  rewrite Hrun in *. unfold read_view in *.
  destruct (get_cached_data settings (clock env) (database env) (query_limit limit) w)
    as [[e | rows0] w'] eqn:Hget; simpl in *; [discriminate |].
  inversion Hbody; subst rows.
  apply get_cached_data_returns_cache in Hget. rewrite Hget.
  destruct (slice_to_prefix rows0 (query_limit limit)) as (tail & Htail).
  exists tail. now rewrite <- Htail.
Qed.

Lemma response_rows_prefix_of_cache_witness :
  exists tail,
    cache_data
      (globals (snd (handle demo_settings fastapi_current (mkEnv 5 (Failing "gone"))
                       (GetView (Some "s3cret") (Some (-1)))
                       (mkWorld (mkGlobals (Some [row_a; row_b; row_c]) (Some 900)) []))))
    = Some ([row_a; row_b] ++ tail).
Proof.
  apply (response_rows_prefix_of_cache demo_settings fastapi_current
           (mkEnv 5 (Failing "gone"))
           (GetView (Some "s3cret") (Some (-1)))
           (mkWorld (mkGlobals (Some [row_a; row_b; row_c]) (Some 900)) [])
           [row_a; row_b]).
  reflexivity.
Defined.

(** ** The two globals move together *)

(** What a call leaves in the globals: nothing new, a full entry, or, when
    the expiry overflows, new rows beside the old expiry. *)
Lemma get_cached_data_globals (settings : Settings) (now : datetime)
      (db : Database) (limit : Z) (w : World) :
  globals (snd (get_cached_data settings now db limit w)) = globals w
  \/ (exists data,
        globals (snd (get_cached_data settings now db limit w))
        = mkGlobals (Some data) (Some (now + timedelta (CACHE_TTL settings))))
  \/ (~ expiry_in_range settings now
      /\ exists data,
           globals (snd (get_cached_data settings now db limit w))
           = mkGlobals (Some data) (cache_expiry (globals w))).
Proof.
  destruct (cache_is_valid (globals w) now) eqn:Hv.
  - apply cache_is_valid_true in Hv. destruct Hv as (rows & Hf).
    rewrite (get_cached_data_hit settings now db limit w rows Hf). now left.
  - rewrite (get_cached_data_miss settings now db limit w Hv).
    destruct (execute_limit db limit) as [e | data]; [now left |].
    destruct (expiry_at settings now) as [msg | expiry] eqn:Hexp.
    + right. right. split; [| now exists data].
      intros Hrange. rewrite (expiry_at_in_range settings now Hrange) in Hexp.
      discriminate Hexp.
    + right. left. apply expiry_at_inr in Hexp. destruct Hexp as (Hsum & _).
      subst expiry. now exists data.
Qed.

Lemma handle_globals (settings : Settings) (fastapi : FastAPI) (env : Env)
      (req : Request) (w : World) :
  globals (snd (handle settings fastapi env req w)) = globals w
  \/ (exists data,
        globals (snd (handle settings fastapi env req w))
        = mkGlobals (Some data)
                    (Some (clock env + timedelta (CACHE_TTL settings))))
  \/ (~ expiry_in_range settings (clock env)
      /\ exists data,
           globals (snd (handle settings fastapi env req w))
           = mkGlobals (Some data) (cache_expiry (globals w))).
Proof.
  destruct req as [| | x_api_key limit]; simpl; try now left.
  destruct (depends_require_api_key settings fastapi x_api_key)
    as [[code detail | msg] | b]; try now left.
  unfold read_view.
  pose proof (get_cached_data_globals settings (clock env) (database env)
                (query_limit limit) w) as Hg.
  now destruct (get_cached_data settings (clock env) (database env)
                  (query_limit limit) w) as [[e | rows] w'].
Qed.

(** A property of the globals that every request keeps is kept by
    serving. *)
Lemma serve_keeps (settings : Settings) (fastapi : FastAPI) (P : Globals -> Prop) :
  (forall env req w,
     P (globals w) -> P (globals (snd (handle settings fastapi env req w)))) ->
  forall reqs w, P (globals w) -> P (globals (serve settings fastapi reqs w)).
Proof.
  intros Hstep reqs. induction reqs as [| [env req] reqs IH]; intros w Hw; simpl.
  - exact Hw.
  - specialize (Hstep env req w Hw).
    destruct (handle settings fastapi env req w) as [r w']. now apply IH.
Qed.

Lemma handle_keeps_cache_data (settings : Settings) (fastapi : FastAPI) (env : Env)
      (req : Request) (w : World) :
  cache_data (globals w) <> None ->
  cache_data (globals (snd (handle settings fastapi env req w))) <> None.
Proof.
  intros Hw.
  destruct (handle_globals settings fastapi env req w)
    as [Hsame | [(data & Hnew) | (_ & data & Hnew)]];
    [now rewrite Hsame | rewrite Hnew; discriminate | rewrite Hnew; discriminate].
Qed.

Lemma handle_keeps_cache_expiry (settings : Settings) (fastapi : FastAPI) (env : Env)
      (req : Request) (w : World) :
  cache_expiry (globals w) <> None ->
  cache_expiry (globals (snd (handle settings fastapi env req w))) <> None.
Proof.
  intros Hw.
  destruct (handle_globals settings fastapi env req w)
    as [Hsame | [(data & Hnew) | (_ & data & Hnew)]];
    [now rewrite Hsame | rewrite Hnew; discriminate | rewrite Hnew; exact Hw].
Qed.

(** X6: nothing clears the cache, and the two globals are set together
    as long as the expiry can be computed.  Once [cache_data] is set it is
    never [None] again, and likewise [cache_expiry]; so after a successful
    startup neither is ever [None].  And serving requests at times for
    which [now + CACHE_TTL] is a representable [datetime] keeps "one is
    [None] iff the other is". *)
Theorem cache_globals_paired
        (settings : Settings) (fastapi : FastAPI) (reqs : list (Env * Request)) :
  (forall w,
     Forall (fun r => expiry_in_range settings (clock (fst r))) reqs ->
     paired (globals w) -> paired (globals (serve settings fastapi reqs w)))
  /\ (forall w,
        cache_data (globals w) <> None ->
        cache_data (globals (serve settings fastapi reqs w)) <> None)
  /\ (forall w,
        cache_expiry (globals w) <> None ->
        cache_expiry (globals (serve settings fastapi reqs w)) <> None)
  /\ (forall boot started final,
        run settings fastapi boot reqs = Served started final ->
        cache_data (globals final) <> None /\ cache_expiry (globals final) <> None).
Proof.
  split; [| split; [| split]].
  - induction reqs as [| [env req] reqs' IH]; intros w Hall Hw; simpl.
    + exact Hw.
    + inversion Hall as [| r rs Hhere Hrest]; subst. simpl in Hhere.
      pose proof (handle_globals settings fastapi env req w) as Hg.
      destruct (handle settings fastapi env req w) as [r w']. simpl in Hg.
      apply IH; [exact Hrest |].
      simpl. destruct Hg as [Hsame | [(data & Hnew) | (Hover & _)]].
      * now rewrite Hsame.
      * rewrite Hnew. unfold paired. simpl. split; discriminate.
      * now elim Hover.
  - apply (serve_keeps settings fastapi (fun g => cache_data g <> None)).
    apply handle_keeps_cache_data.
  - apply (serve_keeps settings fastapi (fun g => cache_expiry g <> None)).
    apply handle_keeps_cache_expiry.
  - intros boot started final. unfold run. rewrite preload_cache_run.
    destruct (execute_limit (database boot) 100) as [e | data]; [discriminate |].
    destruct (expiry_at settings (clock boot)) as [msg | expiry]; [discriminate |].
    intros H. inversion H; subst. split.
    + apply (serve_keeps settings fastapi (fun g => cache_data g <> None));
        [apply handle_keeps_cache_data | discriminate].
    + apply (serve_keeps settings fastapi (fun g => cache_expiry g <> None));
        [apply handle_keeps_cache_expiry | discriminate].
Qed.

Lemma cache_globals_paired_witness :
  paired (globals (serve demo_settings fastapi_current
                     [(mkEnv 5 (Failing "gone"), GetView (Some "s3cret") None);
                      (mkEnv 9 (Serving [row_a]), GetView (Some "s3cret") (Some 1))]
                     module_loaded)).
Proof.
  destruct (cache_globals_paired demo_settings fastapi_current
              [(mkEnv 5 (Failing "gone"), GetView (Some "s3cret") None);
               (mkEnv 9 (Serving [row_a]), GetView (Some "s3cret") (Some 1))])
    as (Hpaired & _).
  apply Hpaired.
  - repeat constructor; in_range.
  - unfold paired. simpl. split; reflexivity.
Defined.

(** ** Accounting for the queries of a run *)

(** A request sends no query, or it is a [/view] request that passed the
    key check and sends the one query with its own limit. *)
Lemma handle_queries (settings : Settings) (fastapi : FastAPI) (env : Env)
      (req : Request) (w : World) :
  trace (snd (handle settings fastapi env req w)) = trace w
  \/ (authorized_view settings fastapi (env, req) = true
      /\ exists x_api_key limit,
           req = GetView x_api_key limit
           /\ trace (snd (handle settings fastapi env req w))
              = trace w ++ [Query (query_limit limit)]).
Proof.
  destruct req as [| | x_api_key limit]; try now left.
  unfold authorized_view. cbn [snd handle].
  destruct (depends_require_api_key settings fastapi x_api_key)
    as [[code detail | msg] | b]; try now left.
  unfold read_view.
  pose proof (get_cached_data_trace settings (clock env) (database env)
                (query_limit limit) w) as Htr.
  destruct (get_cached_data settings (clock env) (database env) (query_limit limit) w)
    as [[e | rows] w']; cbn [snd] in *; rewrite Htr;
    destruct (cache_is_valid (globals w) (clock env)).
  all: first [ left; apply app_nil_r
             | right; split; [reflexivity | now exists x_api_key, limit] ].
Qed.

(** X7: the database is queried at most once per [/view] request that
    passed the key check, and never on behalf of anything else: while
    requests are served, the number of queries is at most the number of
    such requests, and the limit of every query is the limit of one of
    them (100 when the request gave none). *)
Theorem serve_queries_accounted
        (settings : Settings) (fastapi : FastAPI) (reqs : list (Env * Request))
        (w : World) :
  exists rest,
    trace (serve settings fastapi reqs w) = trace w ++ rest
    /\ (List.length (filter is_query rest)
        <= List.length (filter (authorized_view settings fastapi) reqs))%nat
    /\ forall n,
         In (Query n) rest ->
         exists env x_api_key limit,
           In (env, GetView x_api_key limit) reqs
           /\ authorized_view settings fastapi (env, GetView x_api_key limit) = true
           /\ n = query_limit limit.
Proof.
  revert w. induction reqs as [| [env req] reqs IH]; intros w; simpl.
  - exists []. rewrite app_nil_r. split; [reflexivity | split; [simpl; lia |]].
    intros n [].
  - pose proof (handle_queries settings fastapi env req w) as Hq.
    destruct (handle settings fastapi env req w) as [r w'] eqn:Hh. simpl in Hq.
    destruct (IH (mkWorld (globals w') (trace w' ++ [Responded r])))
      as (rest & Hrest & Hcount & Hlimits).
    simpl trace in Hrest.
    assert (Hlater : forall n, In (Query n) rest ->
              exists env0 x_api_key limit,
                ((env, req) = (env0, GetView x_api_key limit)
                 \/ In (env0, GetView x_api_key limit) reqs)
                /\ authorized_view settings fastapi (env0, GetView x_api_key limit)
                   = true
                /\ n = query_limit limit).
    { intros n Hin. destruct (Hlimits n Hin) as (env0 & k & l & Hin' & Hauth & Hn).
      exists env0, k, l. split; [now right | now split]. }
    destruct Hq as [Hsame | (Hauth & x_api_key & limit & Hreq & Hone)].
    + exists (Responded r :: rest). rewrite Hrest, Hsame, <- app_assoc.
      split; [reflexivity |]. simpl. split.
      * destruct (authorized_view settings fastapi (env, req)); simpl; lia.
      * intros n [Habs | Hin]; [discriminate | now apply Hlater].
    + exists (Query (query_limit limit) :: Responded r :: rest).
      rewrite Hrest, Hone, <- !app_assoc. split; [reflexivity |].
      rewrite Hauth. simpl. split; [lia |].
      intros n [Hhere | [Habs | Hin]]; [| discriminate | now apply Hlater].
      inversion Hhere; subst n req.
      exists env, x_api_key, limit. split; [now left | now split].
Qed.

(** ** The time to live *)

(** X8: with [CACHE_TTL <= 0] nothing is ever served from the cache once
    it has been refreshed: after a refresh at time [now] (the fetch
    returned and the expiry [now + CACHE_TTL] was representable), every
    call at [now] or later sends a query again. *)
Theorem non_positive_ttl_disables_cache
        (settings : Settings) (now : datetime) (db : Database) (limit : Z)
        (w : World) (data : list Row) :
  CACHE_TTL settings <= 0 ->
  (~ exists rows, fresh_entry (globals w) now rows) ->
  execute_limit db limit = inr data ->
  expiry_in_range settings now ->
  forall now' db' limit',
    now <= now' ->
    trace (snd (get_cached_data settings now' db' limit'
                  (snd (get_cached_data settings now db limit w))))
    = trace w ++ [Query limit; Query limit'].
Proof.
  intros Httl Hmiss Hdata Hrange now' db' limit' Hlater.
  apply cache_is_valid_false in Hmiss.
  rewrite (get_cached_data_refresh settings now db limit w data Hmiss Hdata Hrange).
  rewrite get_cached_data_trace. simpl.
  assert (Hv : cache_is_valid
                 (mkGlobals (Some data) (Some (now + timedelta (CACHE_TTL settings))))
                 now' = false).
  { apply cache_is_valid_false. intros (rows & expiry & _ & _ & He & Hlt).
    simpl in He. inversion He; subst. unfold timedelta in Hlt. lia. }
  rewrite Hv. now rewrite <- app_assoc.
Qed.

Lemma non_positive_ttl_disables_cache_witness :
  trace (snd (get_cached_data (mkSettings "db" "s3cret" 0) 7 (Serving [row_b]) 4
                (snd (get_cached_data (mkSettings "db" "s3cret" 0) 7
                        (Serving [row_a]) 3 module_loaded))))
  = [Query 3; Query 4].
Proof.
  apply (non_positive_ttl_disables_cache (mkSettings "db" "s3cret" 0) 7
           (Serving [row_a]) 3 module_loaded [row_a]).
  - simpl. lia.
  - intros (rows & expiry & Hd & _). discriminate Hd.
  - reflexivity.
  - in_range.
  - lia.
Defined.

(** X9: a refresh that brought back at least one row is what every call
    gets until its expiry: after a refresh at time [now] returning the
    non-empty [data] (the expiry [now + CACHE_TTL] being representable),
    a call at any time strictly before [now + CACHE_TTL] (the refresh time
    itself and earlier clock readings included) returns [data] and sends
    no query, whatever its limit and whatever the database would
    answer. *)
Theorem refresh_then_hit_within_ttl
        (settings : Settings) (now : datetime) (db : Database) (limit : Z)
        (w : World) (data : list Row) :
  (~ exists rows, fresh_entry (globals w) now rows) ->
  execute_limit db limit = inr data ->
  expiry_in_range settings now ->
  data <> [] ->
  forall now' db' limit',
    now' < now + timedelta (CACHE_TTL settings) ->
    get_cached_data settings now db limit w
    = (inr data,
       mkWorld (mkGlobals (Some data) (Some (now + timedelta (CACHE_TTL settings))))
               (trace w ++ [Query limit]))
    /\ get_cached_data settings now' db' limit'
         (snd (get_cached_data settings now db limit w))
       = (inr data, snd (get_cached_data settings now db limit w)).
Proof.
  intros Hmiss Hdata Hrange Hne now' db' limit' Hbefore.
  apply cache_is_valid_false in Hmiss.
  rewrite (get_cached_data_refresh settings now db limit w data Hmiss Hdata Hrange).
  split; [reflexivity |].
  apply get_cached_data_hit.
  exists (now + timedelta (CACHE_TTL settings)).
  simpl. split; [reflexivity | split; [assumption | split; [reflexivity | assumption]]].
Qed.

Lemma refresh_then_hit_within_ttl_witness :
  get_cached_data demo_settings (timedelta 59) (Failing "gone") 50
    (snd (get_cached_data demo_settings 0 (Serving [row_a; row_b]) 1 module_loaded))
  = (inr [row_a],
     snd (get_cached_data demo_settings 0 (Serving [row_a; row_b]) 1 module_loaded)).
Proof.
  apply (refresh_then_hit_within_ttl demo_settings 0 (Serving [row_a; row_b]) 1
           module_loaded [row_a]).
  - intros (rows & expiry & Hd & _). discriminate Hd.
  - reflexivity.
  - in_range.
  - discriminate.
  - reflexivity.
Defined.

(** X10: the snapshot taken at startup carries the service through an
    outage: after a preload that found at least one row, at a time for
    which [now + CACHE_TTL] is a representable [datetime], a [/view]
    request with the key that arrives strictly before the preload's expiry
    is answered 200 with the first rows of that snapshot (at most 100, cut
    by the request's limit), without any query, whatever state the
    database is in by then. *)
Theorem preload_then_view_within_ttl
        (settings : Settings) (fastapi : FastAPI) (t0 : datetime) (view : list Row)
        (w0 : World) (env : Env) (x_api_key : option string) (limit : option Z) :
  view <> [] ->
  expiry_in_range settings t0 ->
  depends_require_api_key settings fastapi x_api_key = inr true ->
  clock env < t0 + timedelta (CACHE_TTL settings) ->
  let started := snd (preload_cache settings t0 (Serving view) w0) in
  fst (preload_cache settings t0 (Serving view) w0) = inr tt
  /\ handle settings fastapi env (GetView x_api_key limit) started
     = (mkResponse 200
          (JsonRows (Py.slice_to (firstn 100 view) (query_limit limit))),
        started).
Proof.
  intros Hne Hrange Hkey Hbefore started. subst started.
  rewrite preload_cache_run. simpl execute_limit.
  rewrite (expiry_at_in_range settings t0 Hrange). simpl.
  split; [reflexivity |].
  unfold handle. rewrite Hkey. unfold read_view.
  rewrite (get_cached_data_hit settings _ _ _ _ (firstn 100 view)); [reflexivity |].
  exists (t0 + timedelta (CACHE_TTL settings)). simpl.
  split; [reflexivity | split; [| split; [reflexivity | assumption]]].
  destruct view; [now elim Hne | discriminate].
Qed.

Lemma preload_then_view_within_ttl_witness :
  handle demo_settings fastapi_current (mkEnv (timedelta 30) (Failing "gone"))
         (GetView (Some "s3cret") (Some 2))
         (snd (preload_cache demo_settings 0 (Serving [row_a; row_b; row_c])
                 module_loaded))
  = (mkResponse 200 (JsonRows [row_a; row_b]),
     snd (preload_cache demo_settings 0 (Serving [row_a; row_b; row_c])
            module_loaded)).
Proof.
  apply (preload_then_view_within_ttl demo_settings fastapi_current 0
           [row_a; row_b; row_c] module_loaded
           (mkEnv (timedelta 30) (Failing "gone")) (Some "s3cret") (Some 2)).
  - discriminate.
  - in_range.
  - reflexivity.
  - reflexivity.
Defined.
